(** * Shell-wrapper scripts of the U-Net image-segmentation repository

    A shallow embedding of [src/utils/auto_git.py] and
    [src/utils/auto_conda.py].  Both scripts are thin wrappers that print a
    line, hand a command line to the shell through [subprocess], and turn a
    [CalledProcessError] into a diagnostic followed by [sys.exit(1)].

    The Python functions become computations in a small monad that threads
    the host system (file system, installed tools), records every interaction
    with it in a trace, and propagates Python exceptions.  The host and the
    few Python library routines the scripts call are interfaces: the scripts
    are verified against every implementation of them. *)

From Stdlib Require Import String Ascii List ZArith Bool Strings.Byte Lia.
From Stdlib Require Import DecimalString.
Import ListNotations.
Local Open Scope Z_scope.
Local Open Scope string_scope.

(** ** Python values and exceptions *)

(** A [bytes] object, as returned by [subprocess.check_output]. *)
Definition bytes := list byte.

(** The [errno] of an [OSError]. *)
Definition errno := Z.

(** The exceptions that can travel through the scripts.  [SystemExit] is what
    [sys.exit] raises; it derives from [BaseException] and no handler of the
    scripts catches it. *)
Inductive exn : Type :=
| CalledProcessError (returncode : Z) (cmd : string)
| OSError (code : errno)
| UnicodeDecodeError (input : bytes)
| SystemExit (code : Z).

(** Result of evaluating a Python expression or statement block. *)
Inductive outcome (A : Type) : Type :=
| Ret (a : A)
| Exc (e : exn).
Arguments Ret {A} a.
Arguments Exc {A} e.

(** What the caller of a function observes.  An uncaught [SystemExit n] ends
    the interpreter with status [n]; any other uncaught exception is an
    unhandled error. *)
Inductive fate : Type :=
| Returns
| ProcessExit (status : Z)
| Unhandled (e : exn).

Definition fate_of (r : outcome unit) : fate :=
  match r with
  | Ret _ => Returns
  | Exc (SystemExit n) => ProcessExit n
  | Exc e => Unhandled e
  end.

(** ** Interactions with the outside *)

(** How an attempt to run a command line through the shell ends: the shell
    could not be started ([OSError]), or it ran and left an exit status. *)
Inductive spawn_result : Type :=
| SpawnFailed (code : errno)
| Exited (status : Z).

(** One entry per interaction, in program order. *)
Inductive event : Type :=
| Print (line : string)
| Shell (cmd : string) (res : spawn_result)
| PathExists (path : string) (answer : bool)
| Makedirs (path : string) (exist_ok : bool) (res : option errno).

Definition trace := list event.

(** The command lines handed to the shell, in order. *)
Fixpoint spawned (t : trace) : list string :=
  match t with
  | [] => []
  | Shell cmd _ :: t' => cmd :: spawned t'
  | _ :: t' => spawned t'
  end.

(** The lines written by [print], in order. *)
Fixpoint printed (t : trace) : list string :=
  match t with
  | [] => []
  | Print s :: t' => s :: printed t'
  | _ :: t' => printed t'
  end.

(** Did some command of the trace run and exit with a non-zero status? *)
Definition exited_nonzero (e : event) : bool :=
  match e with
  | Shell _ (Exited rc) => negb (Z.eqb rc 0)
  | _ => false
  end.

(** The host system as the scripts see it.
    - [sh cmd w]: run [cmd] with [/bin/sh -c]; either the spawn fails, or the
      command runs to completion with an exit status and the bytes it wrote
      to its standard output; the host may have changed.
    - [path_exists], [path_isdir]: [os.path.exists], [os.path.isdir].
    - [makedirs p exist_ok w]: [os.makedirs(p, exist_ok=exist_ok)]; [Some e]
      when it raises [OSError] with errno [e].
    Python refuses a path or a command line with an embedded NUL character
    with a [ValueError] before the system is asked; the host is only ever
    asked about strings without one, and that refusal is not modelled. *)
Class Host (W : Type) : Type := {
  sh : string -> W -> (errno + Z * bytes) * W;
  path_exists : string -> W -> bool;
  path_isdir : string -> W -> bool;
  makedirs : string -> bool -> W -> option errno * W
}.

(** The documented contract of [os.makedirs] with [exist_ok=True]: an
    existing directory is accepted and left alone, and a call that returns
    leaves a directory behind. *)
Class HostLaws (W : Type) `{Host W} : Prop := {
  makedirs_existing : forall p w,
    path_isdir p w = true -> makedirs p true w = (None, w);
  makedirs_creates : forall p w w',
    makedirs p true w = (None, w') -> path_isdir p w' = true
}.

(** The Python library routines used by the scripts.
    - [CalledProcessError_str rc cmd]: [str(e)] for [e] a
      [CalledProcessError] with that return code and command;
    - [decode_utf8 b]: [b.decode('utf-8')], [None] when it raises
      [UnicodeDecodeError];
    - [strip s]: [s.strip()]. *)
Class Runtime : Type := {
  CalledProcessError_str : Z -> string -> string;
  decode_utf8 : bytes -> option string;
  strip : string -> string
}.

(** ** The monad of script computations *)

(** A computation takes the host, and yields an outcome, the host as it left
    it and the interactions it had. *)
Definition M (W A : Type) : Type := W -> outcome A * W * trace.

Section Scripts.

Context {W : Type} {host : Host W} {rt : Runtime}.

Definition ret {A} (a : A) : M W A := fun w => (Ret a, w, []).

Definition bind {A B} (m : M W A) (k : A -> M W B) : M W B :=
  fun w =>
    match m w with
    | (Ret a, w1, t1) =>
        match k a w1 with
        | (r, w2, t2) => (r, w2, (t1 ++ t2)%list)
        end
    | (Exc e, w1, t1) => (Exc e, w1, t1)
    end.

Definition raise {A} (e : exn) : M W A := fun w => (Exc e, w, []).

(** [try: body  except subprocess.CalledProcessError as e: handler].  Every
    other exception, [SystemExit] included, passes through. *)
Definition try_except_CalledProcessError {A}
    (body : M W A) (handler : Z -> string -> M W A) : M W A :=
  fun w =>
    match body w with
    | (Exc (CalledProcessError rc cmd), w1, t1) =>
        match handler rc cmd w1 with
        | (r, w2, t2) => (r, w2, (t1 ++ t2)%list)
        end
    | res => res
    end.

(** [print(s)] *)
Definition print (s : string) : M W unit := fun w => (Ret tt, w, [Print s]).

(** [sys.exit(n)] *)
Definition sys_exit {A} (n : Z) : M W A := raise (SystemExit n).

(** [subprocess.run(cmd, shell=True, check=True)]: the child inherits the
    standard streams; a non-zero exit status raises [CalledProcessError]. *)
Definition subprocess_run (cmd : string) : M W unit :=
  fun w =>
    match sh cmd w with
    | (inl e, w') => (Exc (OSError e), w', [Shell cmd (SpawnFailed e)])
    | (inr (rc, _), w') =>
        (if Z.eqb rc 0 then Ret tt else Exc (CalledProcessError rc cmd),
         w', [Shell cmd (Exited rc)])
    end.

(** [subprocess.check_output(cmd, shell=True)]: as [subprocess.run] with
    [check=True], returning the captured standard output. *)
Definition subprocess_check_output (cmd : string) : M W bytes :=
  fun w =>
    match sh cmd w with
    | (inl e, w') => (Exc (OSError e), w', [Shell cmd (SpawnFailed e)])
    | (inr (rc, out), w') =>
        (if Z.eqb rc 0 then Ret out else Exc (CalledProcessError rc cmd),
         w', [Shell cmd (Exited rc)])
    end.

(** [b.decode('utf-8')] *)
Definition bytes_decode (b : bytes) : M W string :=
  match decode_utf8 b with
  | Some s => ret s
  | None => raise (UnicodeDecodeError b)
  end.

(** [os.path.exists(p)] *)
Definition os_path_exists (p : string) : M W bool :=
  fun w => let b := path_exists p w in (Ret b, w, [PathExists p b]).

(** [os.makedirs(p, exist_ok=ok)] *)
Definition os_makedirs (p : string) (ok : bool) : M W unit :=
  fun w =>
    match makedirs p ok w with
    | (None, w') => (Ret tt, w', [Makedirs p ok None])
    | (Some e, w') => (Exc (OSError e), w', [Makedirs p ok (Some e)])
    end.

End Scripts.

Declare Scope script_scope.
Delimit Scope script_scope with script.
Notation "x <- m ;; k" := (bind m (fun x => k))
  (at level 61, m at next level, right associativity) : script_scope.
Notation "m ;; k" := (bind m (fun _ => k))
  (at level 61, right associativity) : script_scope.
Local Open Scope script_scope.

(** The newline character inside string literals. *)
Definition nl : string := String (ascii_of_nat 10) EmptyString.

(** ** src/utils/auto_git.py *)

Section AutoGit.

Context {W : Type} {host : Host W} {rt : Runtime}.

Definition git_push_master : M W unit :=
  try_except_CalledProcessError
    (print "Aktualisiere Repository mit 'git push'..." ;;
     subprocess_run "git push -u origin master" ;;
     print "Repository erfolgreich hochgeladen.")
    (fun rc cmd =>
       print ("Fehler beim Git Pull: " ++ CalledProcessError_str rc cmd) ;;
       sys_exit 1).

Definition git_pull : M W unit :=
  try_except_CalledProcessError
    (print "Aktualisiere Repository mit 'git pull'..." ;;
     subprocess_run "git pull origin master" ;;
     print "Repository erfolgreich aktualisiert.")
    (fun rc cmd =>
       print ("Fehler beim Git Pull: " ++ CalledProcessError_str rc cmd) ;;
       sys_exit 1).

Definition install_requirements (requirements_file : string) : M W unit :=
  found <- os_path_exists requirements_file ;;
  if found : bool then
    try_except_CalledProcessError
      (print ("Installiere Abhängigkeiten aus '" ++ requirements_file ++ "'...") ;;
       subprocess_run ("pip install -r " ++ requirements_file) ;;
       print "Abhängigkeiten erfolgreich installiert.")
      (fun rc cmd =>
         print ("Fehler bei der Installation der Abhängigkeiten: "
                ++ CalledProcessError_str rc cmd) ;;
         sys_exit 1)
  else
    print ("Die Datei '" ++ requirements_file ++ "' wurde nicht gefunden.").

Definition git_status : M W unit :=
  try_except_CalledProcessError
    (print "Zeige aktuellen Git-Status..." ;;
     subprocess_run "git status")
    (fun rc cmd =>
       print ("Fehler beim Anzeigen des Git-Status: "
              ++ CalledProcessError_str rc cmd) ;;
       sys_exit 1).

Definition backup_project (backup_dir : string) : M W unit :=
  try_except_CalledProcessError
    (os_makedirs backup_dir true ;;
     subprocess_run ("cp -r . " ++ backup_dir) ;;
     print ("Projekt erfolgreich in '" ++ backup_dir ++ "' gesichert."))
    (fun rc cmd =>
       print ("Fehler beim Erstellen des Backups: "
              ++ CalledProcessError_str rc cmd) ;;
       sys_exit 1).

(** The text between the triple quotes of [show_help]. *)
Definition help_text : string :=
  nl ++ "Verfügbare Funktionen:" ++ nl
  ++ "- git_pull(): Führt einen Git-Pull aus." ++ nl
  ++ "- git_push_master(): Führt einen Git-Push auf master branch aus." ++ nl
  ++ "- install_requirements(requirements_file='requirements.txt'): Installiert Abhängigkeiten aus requirements.txt." ++ nl
  ++ "- git_status(): Zeigt den Git-Status an." ++ nl
  ++ "- backup_project(backup_dir='backups'): Erstellt ein Backup des aktuellen Projekts." ++ nl
  ++ "    ".

Definition show_help : M W unit := print help_text.

(** Default arguments of the signatures. *)
Definition default_requirements_file : string := "requirements.txt".
Definition default_backup_dir : string := "backups".

End AutoGit.

(** ** src/utils/auto_conda.py *)

Section AutoConda.

Context {W : Type} {host : Host W} {rt : Runtime}.

(** The pipeline that asks conda for the active environment. *)
Definition active_env_query : string :=
  "conda info --envs | grep '*' | awk '{print $1}'".

Definition export_command (env_name output_file : string) : string :=
  "conda env export --name " ++ env_name ++ " > " ++ output_file.

Definition freeze_conda_environment
    (env_name : option string) (output_file : string) : M W unit :=
  try_except_CalledProcessError
    (env_name <- match env_name with
                 | None =>
                     out <- subprocess_check_output active_env_query ;;
                     s <- bytes_decode out ;;
                     ret (strip s)
                 | Some name => ret name
                 end ;;
     print ("Speichere Conda-Umgebung '" ++ env_name ++ "' in '"
            ++ output_file ++ "'...") ;;
     subprocess_run (export_command env_name output_file) ;;
     print ("Umgebung erfolgreich in '" ++ output_file ++ "' gespeichert."))
    (fun rc cmd =>
       print ("Fehler beim Speichern der Conda-Umgebung: "
              ++ CalledProcessError_str rc cmd) ;;
       sys_exit 1).

Definition default_output_file : string := "environment.yml".

End AutoConda.

(** ** Reading the result of a run *)

Definition outcome_of {W A} (x : outcome A * W * trace) : outcome A := fst (fst x).
Definition host_after {W A} (x : outcome A * W * trace) : W := snd (fst x).
Definition trace_of {W A} (x : outcome A * W * trace) : trace := snd x.

(** ** The wrappers as one family *)

Inductive call : Type :=
| GitPushMaster
| GitPull
| InstallRequirements (requirements_file : string)
| GitStatus
| BackupProject (backup_dir : string)
| FreezeCondaEnvironment (env_name : option string) (output_file : string).

Definition perform {W} {host : Host W} {rt : Runtime} (c : call) : M W unit :=
  match c with
  | GitPushMaster => git_push_master
  | GitPull => git_pull
  | InstallRequirements f => install_requirements f
  | GitStatus => git_status
  | BackupProject d => backup_project d
  | FreezeCondaEnvironment n o => freeze_conda_environment n o
  end.

(** ** A reference host

    A small concrete host on which the scripts can be run: a list of
    directories and of plain files, the command lines that fail, and the
    bytes the environment query prints. *)

Record sandbox : Type := {
  dirs : list string;
  files : list string;
  failing : list string;
  conda_says : bytes;
  writable : bool
}.

Definition mem (s : string) (l : list string) : bool :=
  existsb (String.eqb s) l.

Definition sandbox_makedirs (p : string) (exist_ok : bool) (w : sandbox)
  : option errno * sandbox :=
  if mem p (dirs w) then
    (if exist_ok then None else Some 17, w)
  else if mem p (files w) then (Some 17, w)
  else if writable w then
    (None, {| dirs := p :: dirs w; files := files w; failing := failing w;
              conda_says := conda_says w; writable := writable w |})
  else (Some 13, w).

(** GNU [cp] refuses to copy the tree into a directory of the tree itself
    and exits with status 1; the sandbox takes every target that is neither
    absolute nor below [..] to lie inside the tree. *)
Definition copies_tree_into_itself (cmd : string) : bool :=
  prefix "cp -r . " cmd
  && negb (prefix "cp -r . /" cmd)
  && negb (prefix "cp -r . ../" cmd).

#[export] Instance sandbox_host : Host sandbox := {
  sh cmd w :=
    (if mem cmd (failing w) || copies_tree_into_itself cmd
     then inr (1, []) else inr (0, conda_says w), w);
  path_exists p w := mem p (dirs w) || mem p (files w);
  path_isdir p w := mem p (dirs w);
  makedirs := sandbox_makedirs
}.

Definition is_space (c : ascii) : bool :=
  match nat_of_ascii c with
  | 9%nat | 10%nat | 11%nat | 12%nat | 13%nat | 32%nat => true
  | _ => false
  end.

Fixpoint lstrip (s : string) : string :=
  match s with
  | String c s' => if is_space c then lstrip s' else s
  | EmptyString => EmptyString
  end.

Fixpoint rstrip (s : string) : string :=
  match s with
  | String c s' =>
      match rstrip s' with
      | EmptyString => if is_space c then EmptyString else String c EmptyString
      | r => String c r
      end
  | EmptyString => EmptyString
  end.

Definition decimal (n : Z) : string := NilZero.string_of_int (Z.to_int n).

(** An ASCII-only runtime: enough to run the scripts in the sandbox.  The
    rendering of [CalledProcessError] follows [subprocess.py], without the
    table of signal names. *)
#[export] Instance ascii_runtime : Runtime := {
  CalledProcessError_str rc cmd :=
    if Z.ltb rc 0 then
      "Command '" ++ cmd ++ "' died with unknown signal " ++ decimal (- rc) ++ "."
    else
      "Command '" ++ cmd ++ "' returned non-zero exit status " ++ decimal rc ++ ".";
  decode_utf8 b :=
    if forallb (fun x => N.ltb (Byte.to_N x) 128) b
    then Some (string_of_list_byte b) else None;
  strip s := rstrip (lstrip s)
}.

(** A checkout with a requirements file, an existing backup directory and
    conda reporting the environment [unet]. *)
Definition checkout : sandbox := {|
  dirs := ["backups"; "src"];
  files := ["requirements.txt"; "README.md"];
  failing := [];
  conda_says := list_byte_of_string ("unet" ++ nl);
  writable := true
|}.

(** The same checkout on a host where the given command lines fail. *)
Definition checkout_failing (cmds : list string) : sandbox := {|
  dirs := dirs checkout;
  files := files checkout;
  failing := cmds;
  conda_says := conda_says checkout;
  writable := true
|}.




(** A read-only checkout without a backup directory. *)
Definition checkout_readonly : sandbox := {|
  dirs := ["src"];
  files := files checkout;
  failing := [];
  conda_says := conda_says checkout;
  writable := false
|}.

(** ** Reading a printed text *)

(** The lines of a text, split at newline characters. *)
Fixpoint lines_from (cur : string) (s : string) : list string :=
  match s with
  | EmptyString => [cur]
  | String c s' =>
      if Ascii.eqb c (ascii_of_nat 10) then cur :: lines_from EmptyString s'
      else lines_from (cur ++ String c EmptyString) s'
  end.

Definition lines (s : string) : list string := lines_from EmptyString s.

(** The part of [s] in front of the first opening parenthesis. *)
Fixpoint before_paren (s : string) : string :=
  match s with
  | EmptyString => EmptyString
  | String c s' =>
      if Ascii.eqb c "("%char then EmptyString else String c (before_paren s')
  end.

(** The operations a help text lists: for every line of the form
    [- name(...]: ...], the [name]. *)
Definition listed_operations (text : string) : list string :=
  flat_map
    (fun l =>
       match l with
       | String "-" (String " " rest) => [before_paren rest]
       | _ => []
       end)
    (lines text).

(** A checkout where the environment query prints a byte that is not
    UTF-8. *)
Definition checkout_garbled : sandbox := {|
  dirs := dirs checkout;
  files := files checkout;
  failing := [];
  conda_says := [Byte.xff];
  writable := true
|}.

(** A host on which no shell can be started: every spawn fails with
    [ENOENT]; the file system is that of a sandbox. *)
Inductive no_shell : Type := NoShell (w : sandbox).

Definition under (h : no_shell) : sandbox := match h with NoShell w => w end.

#[export] Instance no_shell_host : Host no_shell := {
  sh cmd h := (inl 2, h);
  path_exists p h := path_exists p (under h);
  path_isdir p h := path_isdir p (under h);
  makedirs p ok h :=
    match makedirs p ok (under h) with
    | (r, w') => (r, NoShell w')
    end
}.

(** ** Further readings of a call and of its trace *)

(** The line a wrapper prints after its command went through; [git_status]
    has none. *)
Definition confirmation (c : call) : option string :=
  match c with
  | GitPushMaster => Some "Repository erfolgreich hochgeladen."
  | GitPull => Some "Repository erfolgreich aktualisiert."
  | InstallRequirements _ => Some "Abhängigkeiten erfolgreich installiert."
  | GitStatus => None
  | BackupProject d => Some ("Projekt erfolgreich in '" ++ d ++ "' gesichert.")
  | FreezeCondaEnvironment _ o =>
      Some ("Umgebung erfolgreich in '" ++ o ++ "' gespeichert.")
  end.

(** How many [subprocess] calls the body of a wrapper contains. *)
Definition max_commands (c : call) : nat :=
  match c with
  | FreezeCondaEnvironment None _ => 2
  | _ => 1
  end.

(** How the commands of a trace ended, in order. *)
Fixpoint results (t : trace) : list spawn_result :=
  match t with
  | [] => []
  | Shell _ r :: t' => r :: results t'
  | _ :: t' => results t'
  end.

Definition exited_zero (r : spawn_result) : bool :=
  match r with
  | Exited rc => Z.eqb rc 0
  | SpawnFailed _ => false
  end.

(** Is the outcome a [CalledProcessError] that nobody caught? *)
Definition leaks_CalledProcessError (r : outcome unit) : bool :=
  match r with
  | Exc (CalledProcessError _ _) => true
  | _ => false
  end.

(** Could some command of the trace not be started? *)
Definition spawn_failed (e : event) : bool :=
  match e with
  | Shell _ (SpawnFailed _) => true
  | _ => false
  end.

(** * Properties *)

Lemma mem_head (p : string) (l : list string) : mem p (p :: l) = true.
Proof. unfold mem. simpl. now rewrite String.eqb_refl. Qed.

#[export] Instance sandbox_laws : HostLaws sandbox.
Proof.
  split.
  - intros p w Hd. simpl in *. unfold sandbox_makedirs. now rewrite Hd.
  - intros p w w'. simpl. unfold sandbox_makedirs.
    destruct (mem p (dirs w)) eqn:Hd.
    + intros [= <-]. exact Hd.
    + destruct (mem p (files w)); [discriminate|].
      destruct (writable w); [|discriminate].
      intros [= <-]. simpl. apply mem_head.
Qed.

Example sandbox_git_status :
  git_status checkout
  = (Ret tt, checkout,
     [Print "Zeige aktuellen Git-Status..."; Shell "git status" (Exited 0)]).
Proof. reflexivity. Qed.

Example sandbox_freeze_default :
  trace_of (freeze_conda_environment None default_output_file checkout)
  = [Shell active_env_query (Exited 0);
     Print "Speichere Conda-Umgebung 'unet' in 'environment.yml'...";
     Shell "conda env export --name unet > environment.yml" (Exited 0);
     Print "Umgebung erfolgreich in 'environment.yml' gespeichert."].
Proof. reflexivity. Qed.

Example sandbox_backup_readonly :
  backup_project default_backup_dir checkout_readonly
  = (Exc (OSError 13), checkout_readonly, [Makedirs "backups" true (Some 13)]).
Proof. reflexivity. Qed.

Example sandbox_pull_fails :
  git_pull (checkout_failing ["git pull origin master"])
  = (Exc (SystemExit 1), checkout_failing ["git pull origin master"],
     [Print "Aktualisiere Repository mit 'git pull'...";
      Shell "git pull origin master" (Exited 1);
      Print "Fehler beim Git Pull: Command 'git pull origin master' returned non-zero exit status 1."]).
Proof. reflexivity. Qed.

(** ** Proof support *)

(** Unfold a script down to the host's answers. *)
Ltac unfold_script :=
  unfold perform, git_push_master, git_pull, install_requirements, git_status,
    backup_project, show_help, freeze_conda_environment,
    try_except_CalledProcessError, bind, print, sys_exit, raise, ret,
    subprocess_run, subprocess_check_output, bytes_decode, os_path_exists,
    os_makedirs, outcome_of, host_after, trace_of in *.

(** Split on whatever answer of the host or of the runtime the goal still
    waits for. *)
Ltac case_host :=
  repeat (unfold_script; cbn [fst snd app fate_of spawned printed];
    match goal with
    | |- context [sh ?c ?w] =>
        let E := fresh "Hsh" in
        destruct (sh c w) as [[?e | [?rc ?out]] ?w'] eqn:E
    | |- context [makedirs ?p ?b ?w] =>
        let E := fresh "Hmk" in
        destruct (makedirs p b w) as [[?e|] ?w'] eqn:E
    | |- context [path_exists ?p ?w] =>
        let E := fresh "Hex" in destruct (path_exists p w) eqn:E
    | |- context [decode_utf8 ?b] =>
        let E := fresh "Hdec" in destruct (decode_utf8 b) eqn:E
    | |- context [Z.eqb ?rc 0] =>
        destruct (Z.eqb_spec rc 0); [subst rc|]
    end).

(** ** git_push_master *)

(** C7. [git_push_master] hands exactly one command line to the shell,
    [git push -u origin master] (push to [master] on [origin], [-u] setting
    the upstream); when that command exits with status 0 the function
    returns after printing its confirmation message. *)
Theorem git_push_master_one_push
    {W : Type} {host : Host W} {rt : Runtime} (w : W) :
  spawned (trace_of (git_push_master w)) = ["git push -u origin master"]
  /\ forall out w1,
       sh "git push -u origin master" w = (inr (0, out), w1) ->
       git_push_master w
       = (Ret tt, w1,
          [Print "Aktualisiere Repository mit 'git push'...";
           Shell "git push -u origin master" (Exited 0);
           Print "Repository erfolgreich hochgeladen."]).
Proof.
  split.
  - unfold_script. case_host; reflexivity.
  - intros out w1 Hok. unfold_script. rewrite Hok. reflexivity.
Qed.

Lemma git_push_master_one_push_witness :
  spawned (trace_of (git_push_master checkout)) = ["git push -u origin master"]
  /\ printed (trace_of (git_push_master checkout))
     = ["Aktualisiere Repository mit 'git push'...";
        "Repository erfolgreich hochgeladen."].
Proof.
  destruct (git_push_master_one_push checkout) as [Hone Hok].
  split; [exact Hone|].
  rewrite (Hok (conda_says checkout) checkout); reflexivity.
Defined.

(** ** install_requirements *)

(** C2. When the requirements path does not exist, [install_requirements]
    only asks the file system and prints the file-not-found message: it
    returns normally, leaves the host as it was and hands nothing to the
    shell. *)
Theorem install_requirements_missing
    {W : Type} {host : Host W} {rt : Runtime} (path : string) (w : W) :
  path_exists path w = false ->
  install_requirements path w
  = (Ret tt, w,
     [PathExists path false;
      Print ("Die Datei '" ++ path ++ "' wurde nicht gefunden.")])
  /\ fate_of (outcome_of (install_requirements path w)) = Returns
  /\ spawned (trace_of (install_requirements path w)) = []
  /\ printed (trace_of (install_requirements path w))
     = ["Die Datei '" ++ path ++ "' wurde nicht gefunden."].
Proof.
  intros Hno.
  assert (Hrun : install_requirements path w
                 = (Ret tt, w,
                    [PathExists path false;
                     Print ("Die Datei '" ++ path ++ "' wurde nicht gefunden.")])).
  { unfold_script. rewrite Hno. reflexivity. }
  rewrite Hrun. repeat split.
Qed.

Lemma install_requirements_missing_witness :
  path_exists "missing.txt" checkout = false
  /\ install_requirements "missing.txt" checkout
     = (Ret tt, checkout,
        [PathExists "missing.txt" false;
         Print "Die Datei 'missing.txt' wurde nicht gefunden."]).
Proof.
  split; [reflexivity|].
  apply (install_requirements_missing "missing.txt" checkout).
  reflexivity.
Defined.

(** C3. When the requirements path exists, [install_requirements] hands
    exactly one command line to the shell, [pip install -r] followed by that
    path, whatever the command then does; when it exits with status 0 the
    confirmation message is printed and the function returns. *)
Theorem install_requirements_existing
    {W : Type} {host : Host W} {rt : Runtime} (path : string) (w : W) :
  path_exists path w = true ->
  spawned (trace_of (install_requirements path w)) = ["pip install -r " ++ path]
  /\ forall out w1,
       sh ("pip install -r " ++ path) w = (inr (0, out), w1) ->
       install_requirements path w
       = (Ret tt, w1,
          [PathExists path true;
           Print ("Installiere Abhängigkeiten aus '" ++ path ++ "'...");
           Shell ("pip install -r " ++ path) (Exited 0);
           Print "Abhängigkeiten erfolgreich installiert."]).
Proof.
  intros Hyes. split.
  - unfold_script. rewrite Hyes. case_host; reflexivity.
  - intros out w1 Hok. unfold_script. rewrite Hyes, Hok. reflexivity.
Qed.

Lemma install_requirements_existing_witness :
  path_exists default_requirements_file checkout = true
  /\ spawned (trace_of (install_requirements default_requirements_file checkout))
     = ["pip install -r requirements.txt"]
  /\ install_requirements default_requirements_file checkout
     = (Ret tt, checkout,
        [PathExists "requirements.txt" true;
         Print "Installiere Abhängigkeiten aus 'requirements.txt'...";
         Shell "pip install -r requirements.txt" (Exited 0);
         Print "Abhängigkeiten erfolgreich installiert."]).
Proof.
  assert (Hyes : path_exists default_requirements_file checkout = true)
    by reflexivity.
  split; [exact Hyes|].
  destruct (install_requirements_existing default_requirements_file checkout
              Hyes) as [Hone Hok].
  split; [exact Hone|].
  apply (Hok (conda_says checkout) checkout). reflexivity.
Defined.

(** ** show_help *)

(** C8. [show_help] prints one fixed text and does nothing else: the host is
    untouched, nothing is handed to the shell, and the text, the same on
    every host, has eight lines that list the five operations of the
    module. *)
Theorem show_help_static
    {W : Type} {host : Host W} {rt : Runtime} (w : W) :
  show_help w = (Ret tt, w, [Print help_text])
  /\ spawned (trace_of (show_help w)) = []
  /\ host_after (show_help w) = w
  /\ length (lines help_text) = 8%nat
  /\ listed_operations help_text
     = ["git_pull"; "git_push_master"; "install_requirements";
        "git_status"; "backup_project"].
Proof. repeat split. Qed.

(** ** freeze_conda_environment *)

Lemma freeze_explicit_name_spawned
    {W : Type} {host : Host W} {rt : Runtime}
    (name output_file : string) (w : W) :
  spawned (trace_of (freeze_conda_environment (Some name) output_file w))
  = [export_command name output_file].
Proof. unfold_script. case_host; reflexivity. Qed.

(** C4. With an explicit environment name, [freeze_conda_environment] hands
    exactly one command line to the shell: the export of that environment
    with its output redirected to [output_file].  The query for the active
    environment is not among the commands it runs. *)
Theorem freeze_explicit_name_no_query
    {W : Type} {host : Host W} {rt : Runtime}
    (name output_file : string) (w : W) :
  spawned (trace_of (freeze_conda_environment (Some name) output_file w))
  = ["conda env export --name " ++ name ++ " > " ++ output_file]
  /\ ~ In active_env_query
        (spawned (trace_of (freeze_conda_environment (Some name) output_file w))).
Proof.
  rewrite freeze_explicit_name_spawned. split; [reflexivity|].
  intros [Heq | []]. discriminate Heq.
Qed.



(** C10. Without an environment name, a non-zero exit status of the query
    for the active environment is caught by the handler of
    [freeze_conda_environment] like a failure of the export: the diagnostic
    is printed, the process exits with status 1 and the export is never
    started. *)
Theorem freeze_query_failure_exits_1
    {W : Type} {host : Host W} {rt : Runtime}
    (output_file : string) (w w1 : W) (rc : Z) (out : bytes) :
  sh active_env_query w = (inr (rc, out), w1) ->
  rc <> 0 ->
  freeze_conda_environment None output_file w
  = (Exc (SystemExit 1), w1,
     [Shell active_env_query (Exited rc);
      Print ("Fehler beim Speichern der Conda-Umgebung: "
             ++ CalledProcessError_str rc active_env_query)])
  /\ fate_of (outcome_of (freeze_conda_environment None output_file w))
     = ProcessExit 1.
Proof.
  intros Hq Hrc.
  assert (Hrun :
    freeze_conda_environment None output_file w
    = (Exc (SystemExit 1), w1,
       [Shell active_env_query (Exited rc);
        Print ("Fehler beim Speichern der Conda-Umgebung: "
               ++ CalledProcessError_str rc active_env_query)])).
  { unfold_script. rewrite Hq.
    destruct (Z.eqb_spec rc 0); [contradiction|]. reflexivity. }
  rewrite Hrun. split; reflexivity.
Qed.

Lemma freeze_query_failure_exits_1_witness :
  freeze_conda_environment None default_output_file
    (checkout_failing [active_env_query])
  = (Exc (SystemExit 1), checkout_failing [active_env_query],
     [Shell active_env_query (Exited 1);
      Print ("Fehler beim Speichern der Conda-Umgebung: "
             ++ "Command '" ++ active_env_query
             ++ "' returned non-zero exit status 1.")]).
Proof.
  refine (proj1 (freeze_query_failure_exits_1 default_output_file
                   (checkout_failing [active_env_query])
                   (checkout_failing [active_env_query]) 1 [] _ _)).
  - reflexivity.
  - lia.
Defined.

(** ** backup_project *)

(** C9. The handler of [backup_project] catches the failure of the copy
    command only.  When [os.makedirs] raises an [OSError], that exception
    reaches the caller: nothing is printed, no command is started and the
    process does not exit with status 1 through [sys.exit].  When the
    directory step succeeds and the copy exits with a non-zero status, the
    diagnostic is printed and the process exits with status 1. *)
Theorem backup_project_makedirs_error_propagates
    {W : Type} {host : Host W} {rt : Runtime} (backup_dir : string) (w : W) :
  (forall e w1,
      makedirs backup_dir true w = (Some e, w1) ->
      backup_project backup_dir w
      = (Exc (OSError e), w1, [Makedirs backup_dir true (Some e)])
      /\ fate_of (outcome_of (backup_project backup_dir w))
         = Unhandled (OSError e))
  /\ (forall w1 w2 rc out,
         makedirs backup_dir true w = (None, w1) ->
         sh ("cp -r . " ++ backup_dir) w1 = (inr (rc, out), w2) ->
         rc <> 0 ->
         backup_project backup_dir w
         = (Exc (SystemExit 1), w2,
            [Makedirs backup_dir true None;
             Shell ("cp -r . " ++ backup_dir) (Exited rc);
             Print ("Fehler beim Erstellen des Backups: "
                    ++ CalledProcessError_str rc ("cp -r . " ++ backup_dir))])).
Proof.
  split.
  - intros e w1 Hmk.
    assert (Hrun : backup_project backup_dir w
                   = (Exc (OSError e), w1, [Makedirs backup_dir true (Some e)])).
    { unfold_script. rewrite Hmk. reflexivity. }
    rewrite Hrun. split; reflexivity.
  - intros w1 w2 rc out Hmk Hcp Hrc.
    unfold_script. rewrite Hmk. cbn [fst snd app]. rewrite Hcp.
    destruct (Z.eqb_spec rc 0); [contradiction|]. reflexivity.
Qed.

Lemma backup_project_makedirs_error_propagates_witness :
  (backup_project default_backup_dir checkout_readonly
   = (Exc (OSError 13), checkout_readonly, [Makedirs "backups" true (Some 13)])
   /\ fate_of (outcome_of (backup_project default_backup_dir checkout_readonly))
      = Unhandled (OSError 13))
  /\ fate_of (outcome_of (backup_project default_backup_dir
                            (checkout_failing ["cp -r . backups"])))
     = ProcessExit 1.
Proof.
  split.
  - apply (backup_project_makedirs_error_propagates
             default_backup_dir checkout_readonly).
    reflexivity.
  - destruct (backup_project_makedirs_error_propagates
                default_backup_dir (checkout_failing ["cp -r . backups"]))
      as [_ Hcp].
    rewrite (Hcp (checkout_failing ["cp -r . backups"])
                 (checkout_failing ["cp -r . backups"]) 1 []);
      [reflexivity | reflexivity | reflexivity | lia].
Defined.

(** ** Every wrapper: a failing command ends the process *)

(** C1. For each wrapper, on every host: when the host answers the wrapper's
    command line with a non-zero exit status [rc] (for [install_requirements]
    the file exists, for [backup_project] the directory step went through,
    for [freeze_conda_environment] the failing command is the export, or,
    without a name, the export after a successful query or the query
    itself), the call ends the process with exit status 1 through
    [sys.exit], not with an unhandled exception, in the host the command
    left, and the last thing it does after the failed command is print its
    diagnostic line: the wrapper's message followed by the text of the
    [CalledProcessError]. *)
Theorem wrapper_failure_exits_1
    {W : Type} {host : Host W} {rt : Runtime}
    (w w1 : W) (rc : Z) (out : bytes) :
  rc <> 0 ->
  (sh "git push -u origin master" w = (inr (rc, out), w1) ->
   git_push_master w
   = (Exc (SystemExit 1), w1,
      [Print "Aktualisiere Repository mit 'git push'...";
       Shell "git push -u origin master" (Exited rc);
       Print ("Fehler beim Git Pull: "
              ++ CalledProcessError_str rc "git push -u origin master")]))
  /\ (sh "git pull origin master" w = (inr (rc, out), w1) ->
      git_pull w
      = (Exc (SystemExit 1), w1,
         [Print "Aktualisiere Repository mit 'git pull'...";
          Shell "git pull origin master" (Exited rc);
          Print ("Fehler beim Git Pull: "
                 ++ CalledProcessError_str rc "git pull origin master")]))
  /\ (forall f,
         path_exists f w = true ->
         sh ("pip install -r " ++ f) w = (inr (rc, out), w1) ->
         install_requirements f w
         = (Exc (SystemExit 1), w1,
            [PathExists f true;
             Print ("Installiere Abhängigkeiten aus '" ++ f ++ "'...");
             Shell ("pip install -r " ++ f) (Exited rc);
             Print ("Fehler bei der Installation der Abhängigkeiten: "
                    ++ CalledProcessError_str rc ("pip install -r " ++ f))]))
  /\ (sh "git status" w = (inr (rc, out), w1) ->
      git_status w
      = (Exc (SystemExit 1), w1,
         [Print "Zeige aktuellen Git-Status...";
          Shell "git status" (Exited rc);
          Print ("Fehler beim Anzeigen des Git-Status: "
                 ++ CalledProcessError_str rc "git status")]))
  /\ (forall d w0,
         makedirs d true w0 = (None, w) ->
         sh ("cp -r . " ++ d) w = (inr (rc, out), w1) ->
         backup_project d w0
         = (Exc (SystemExit 1), w1,
            [Makedirs d true None;
             Shell ("cp -r . " ++ d) (Exited rc);
             Print ("Fehler beim Erstellen des Backups: "
                    ++ CalledProcessError_str rc ("cp -r . " ++ d))]))
  /\ (forall name o,
         sh ("conda env export --name " ++ name ++ " > " ++ o) w
         = (inr (rc, out), w1) ->
         freeze_conda_environment (Some name) o w
         = (Exc (SystemExit 1), w1,
            [Print ("Speichere Conda-Umgebung '" ++ name ++ "' in '" ++ o
                    ++ "'...");
             Shell ("conda env export --name " ++ name ++ " > " ++ o)
                   (Exited rc);
             Print ("Fehler beim Speichern der Conda-Umgebung: "
                    ++ CalledProcessError_str rc
                         ("conda env export --name " ++ name ++ " > " ++ o))]))
  /\ (forall o w0 listing s,
         sh "conda info --envs | grep '*' | awk '{print $1}'" w0
         = (inr (0, listing), w) ->
         decode_utf8 listing = Some s ->
         sh ("conda env export --name " ++ strip s ++ " > " ++ o) w
         = (inr (rc, out), w1) ->
         freeze_conda_environment None o w0
         = (Exc (SystemExit 1), w1,
            [Shell "conda info --envs | grep '*' | awk '{print $1}'" (Exited 0);
             Print ("Speichere Conda-Umgebung '" ++ strip s ++ "' in '" ++ o
                    ++ "'...");
             Shell ("conda env export --name " ++ strip s ++ " > " ++ o)
                   (Exited rc);
             Print ("Fehler beim Speichern der Conda-Umgebung: "
                    ++ CalledProcessError_str rc
                         ("conda env export --name " ++ strip s ++ " > " ++ o))]))
  /\ (forall o,
         sh "conda info --envs | grep '*' | awk '{print $1}'" w
         = (inr (rc, out), w1) ->
         freeze_conda_environment None o w
         = (Exc (SystemExit 1), w1,
            [Shell "conda info --envs | grep '*' | awk '{print $1}'" (Exited rc);
             Print ("Fehler beim Speichern der Conda-Umgebung: "
                    ++ CalledProcessError_str rc
                         "conda info --envs | grep '*' | awk '{print $1}'")])).
Proof.
  intros Hrc.
  assert (Hne : Z.eqb rc 0 = false) by (apply Z.eqb_neq; exact Hrc).
  split; [|split; [|split; [|split; [|split; [|split; [|split]]]]]].
  - intros Hsh. unfold_script. rewrite Hsh, Hne. reflexivity.
  - intros Hsh. unfold_script. rewrite Hsh, Hne. reflexivity.
  - intros f Hex Hsh. unfold_script. rewrite Hex, Hsh, Hne. reflexivity.
  - intros Hsh. unfold_script. rewrite Hsh, Hne. reflexivity.
  - intros d w0 Hmk Hsh. unfold_script. rewrite Hmk. cbn [fst snd app].
    rewrite Hsh, Hne. reflexivity.
  - intros name o Hsh. unfold_script. cbn [fst snd app].
    change ("conda env export --name " ++ name ++ " > " ++ o)
      with (export_command name o) in Hsh.
    rewrite Hsh, Hne. reflexivity.
  - intros o w0 listing s Hq Hdec Hsh. unfold_script.
    change "conda info --envs | grep '*' | awk '{print $1}'"
      with active_env_query in Hq.
    rewrite Hq. cbn [Z.eqb]. rewrite Hdec. unfold_script. cbn [fst snd app].
    change ("conda env export --name " ++ strip s ++ " > " ++ o)
      with (export_command (strip s) o) in Hsh.
    rewrite Hsh, Hne. reflexivity.
  - intros o Hq. unfold_script.
    change "conda info --envs | grep '*' | awk '{print $1}'"
      with active_env_query in Hq.
    rewrite Hq, Hne. reflexivity.
Qed.

Lemma wrapper_failure_exits_1_witness :
  fate_of (outcome_of (git_push_master
                         (checkout_failing ["git push -u origin master"])))
  = ProcessExit 1
  /\ fate_of (outcome_of (git_pull (checkout_failing ["git pull origin master"])))
     = ProcessExit 1
  /\ fate_of (outcome_of (install_requirements "requirements.txt"
                            (checkout_failing ["pip install -r requirements.txt"])))
     = ProcessExit 1
  /\ printed (trace_of (git_status (checkout_failing ["git status"])))
     = ["Zeige aktuellen Git-Status...";
        "Fehler beim Anzeigen des Git-Status: Command 'git status' returned non-zero exit status 1."]
  /\ fate_of (outcome_of (backup_project "backups"
                            (checkout_failing ["cp -r . backups"])))
     = ProcessExit 1
  /\ fate_of (outcome_of (freeze_conda_environment (Some "unet") "environment.yml"
                            (checkout_failing
                               ["conda env export --name unet > environment.yml"])))
     = ProcessExit 1
  /\ spawned (trace_of (freeze_conda_environment None "environment.yml"
                          (checkout_failing
                             ["conda env export --name unet > environment.yml"])))
     = ["conda info --envs | grep '*' | awk '{print $1}'";
        "conda env export --name unet > environment.yml"]
  /\ fate_of (outcome_of (freeze_conda_environment None "environment.yml"
                            (checkout_failing
                               ["conda info --envs | grep '*' | awk '{print $1}'"])))
     = ProcessExit 1.
Proof.
  assert (Hone : 1 <> 0) by lia.
  split; [|split; [|split; [|split; [|split; [|split; [|split]]]]]].
  - pose proof (wrapper_failure_exits_1
                  (checkout_failing ["git push -u origin master"])
                  (checkout_failing ["git push -u origin master"]) 1 [] Hone)
      as (H & _).
    rewrite H; reflexivity.
  - pose proof (wrapper_failure_exits_1
                  (checkout_failing ["git pull origin master"])
                  (checkout_failing ["git pull origin master"]) 1 [] Hone)
      as (_ & H & _).
    rewrite H; reflexivity.
  - pose proof (wrapper_failure_exits_1
                  (checkout_failing ["pip install -r requirements.txt"])
                  (checkout_failing ["pip install -r requirements.txt"])
                  1 [] Hone)
      as (_ & _ & H & _).
    rewrite (H "requirements.txt"); reflexivity.
  - pose proof (wrapper_failure_exits_1
                  (checkout_failing ["git status"])
                  (checkout_failing ["git status"]) 1 [] Hone)
      as (_ & _ & _ & H & _).
    rewrite H; reflexivity.
  - pose proof (wrapper_failure_exits_1
                  (checkout_failing ["cp -r . backups"])
                  (checkout_failing ["cp -r . backups"]) 1 [] Hone)
      as (_ & _ & _ & _ & H & _).
    rewrite (H "backups" (checkout_failing ["cp -r . backups"]));
      reflexivity.
  - pose proof (wrapper_failure_exits_1
                  (checkout_failing
                     ["conda env export --name unet > environment.yml"])
                  (checkout_failing
                     ["conda env export --name unet > environment.yml"])
                  1 [] Hone)
      as (_ & _ & _ & _ & _ & H & _).
    rewrite (H "unet" "environment.yml"); reflexivity.
  - pose proof (wrapper_failure_exits_1
                  (checkout_failing
                     ["conda env export --name unet > environment.yml"])
                  (checkout_failing
                     ["conda env export --name unet > environment.yml"])
                  1 [] Hone)
      as (_ & _ & _ & _ & _ & _ & H & _).
    rewrite (H "environment.yml"
               (checkout_failing
                  ["conda env export --name unet > environment.yml"])
               (conda_says checkout) ("unet" ++ nl));
      reflexivity.
  - pose proof (wrapper_failure_exits_1
                  (checkout_failing
                     ["conda info --envs | grep '*' | awk '{print $1}'"])
                  (checkout_failing
                     ["conda info --envs | grep '*' | awk '{print $1}'"])
                  1 [] Hone)
      as (_ & _ & _ & _ & _ & _ & _ & H).
    rewrite (H "environment.yml"); reflexivity.
Defined.

(** ** backup_project, called again *)




(** * Further properties of the scripts *)

(** Use what is known about an exit status. *)
Ltac known_status :=
  repeat match goal with
         | H : ?rc <> 0 |- context [Z.eqb ?rc 0] =>
             rewrite (proj2 (Z.eqb_neq rc 0) H)
         end.

(** ** git_pull and git_status *)

(** X1. [git_pull] hands exactly one command line to the shell,
    [git pull origin master], whatever happens to it; when the command exits
    with status 0 the call returns after the announcement, the command and
    the confirmation line, in the host the command left. *)
Theorem git_pull_one_pull
    {W : Type} {host : Host W} {rt : Runtime} (w : W) :
  spawned (trace_of (git_pull w)) = ["git pull origin master"]
  /\ forall out w1,
       sh "git pull origin master" w = (inr (0, out), w1) ->
       git_pull w
       = (Ret tt, w1,
          [Print "Aktualisiere Repository mit 'git pull'...";
           Shell "git pull origin master" (Exited 0);
           Print "Repository erfolgreich aktualisiert."]).
Proof.
  split.
  - case_host; reflexivity.
  - intros out w1 Hok. unfold_script. rewrite Hok. reflexivity.
Qed.

Lemma git_pull_one_pull_witness :
  git_pull checkout
  = (Ret tt, checkout,
     [Print "Aktualisiere Repository mit 'git pull'...";
      Shell "git pull origin master" (Exited 0);
      Print "Repository erfolgreich aktualisiert."]).
Proof.
  apply (proj2 (git_pull_one_pull checkout) (conda_says checkout) checkout).
  reflexivity.
Defined.

(** X2. [git_status] prints its announcement before anything else and hands
    exactly one command line, [git status], to the shell.  It has no
    confirmation line: unless the command exits with a non-zero status, the
    announcement is the only line the function itself prints. *)
Theorem git_status_prints_header_only
    {W : Type} {host : Host W} {rt : Runtime} (w : W) :
  spawned (trace_of (git_status w)) = ["git status"]
  /\ (exists res rest,
        trace_of (git_status w)
        = Print "Zeige aktuellen Git-Status..." :: Shell "git status" res :: rest)
  /\ (existsb exited_nonzero (trace_of (git_status w)) = false ->
      printed (trace_of (git_status w)) = ["Zeige aktuellen Git-Status..."]).
Proof.
  split; [|split].
  - case_host; reflexivity.
  - case_host; do 2 eexists; reflexivity.
  - case_host; cbn [fst snd existsb exited_nonzero orb negb Z.eqb printed];
      known_status; try reflexivity.
    cbn. intros; discriminate.
Qed.

Lemma git_status_prints_header_only_witness :
  existsb exited_nonzero (trace_of (git_status checkout)) = false
  /\ printed (trace_of (git_status checkout)) = ["Zeige aktuellen Git-Status..."].
Proof.
  assert (Hok : existsb exited_nonzero (trace_of (git_status checkout)) = false)
    by reflexivity.
  split; [exact Hok|].
  exact (proj2 (proj2 (git_status_prints_header_only checkout)) Hok).
Defined.

(** ** freeze_conda_environment, the remaining paths *)

(** X3. With an explicit name, [freeze_conda_environment] announces the
    export with that name and the output file before it starts the command;
    when the export exits with status 0 the confirmation naming the output
    file follows and the call returns in the host the export left. *)
Theorem freeze_explicit_name_success
    {W : Type} {host : Host W} {rt : Runtime}
    (name output_file : string) (w : W) :
  (exists res rest,
      trace_of (freeze_conda_environment (Some name) output_file w)
      = Print ("Speichere Conda-Umgebung '" ++ name ++ "' in '"
               ++ output_file ++ "'...")
        :: Shell (export_command name output_file) res :: rest)
  /\ forall out w1,
       sh (export_command name output_file) w = (inr (0, out), w1) ->
       freeze_conda_environment (Some name) output_file w
       = (Ret tt, w1,
          [Print ("Speichere Conda-Umgebung '" ++ name ++ "' in '"
                  ++ output_file ++ "'...");
           Shell ("conda env export --name " ++ name ++ " > " ++ output_file)
                 (Exited 0);
           Print ("Umgebung erfolgreich in '" ++ output_file
                  ++ "' gespeichert.")]).
Proof.
  split.
  - case_host; do 2 eexists; reflexivity.
  - intros out w1 Hok. unfold_script. cbn [fst snd app]. rewrite Hok.
    reflexivity.
Qed.

Lemma freeze_explicit_name_success_witness :
  freeze_conda_environment (Some "unet") default_output_file checkout
  = (Ret tt, checkout,
     [Print "Speichere Conda-Umgebung 'unet' in 'environment.yml'...";
      Shell "conda env export --name unet > environment.yml" (Exited 0);
      Print "Umgebung erfolgreich in 'environment.yml' gespeichert."]).
Proof.
  apply (proj2 (freeze_explicit_name_success "unet" default_output_file checkout)
           (conda_says checkout) checkout).
  reflexivity.
Defined.

(** X4. Without an environment name, when the query exits with status 0 but
    its output is not valid UTF-8, the [UnicodeDecodeError] raised by
    [decode] is not caught: it reaches the caller, nothing is printed, the
    export is never started and the process does not exit through
    [sys.exit]. *)
Theorem freeze_undecodable_query_output
    {W : Type} {host : Host W} {rt : Runtime}
    (output_file : string) (w w1 : W) (out : bytes) :
  sh active_env_query w = (inr (0, out), w1) ->
  decode_utf8 out = None ->
  freeze_conda_environment None output_file w
  = (Exc (UnicodeDecodeError out), w1, [Shell active_env_query (Exited 0)])
  /\ fate_of (outcome_of (freeze_conda_environment None output_file w))
     = Unhandled (UnicodeDecodeError out).
Proof.
  intros Hq Hdec.
  assert (Hrun :
    freeze_conda_environment None output_file w
    = (Exc (UnicodeDecodeError out), w1, [Shell active_env_query (Exited 0)])).
  { unfold_script. rewrite Hq. cbn [Z.eqb]. rewrite Hdec. reflexivity. }
  rewrite Hrun. split; reflexivity.
Qed.

Lemma freeze_undecodable_query_output_witness :
  freeze_conda_environment None default_output_file checkout_garbled
  = (Exc (UnicodeDecodeError [Byte.xff]), checkout_garbled,
     [Shell active_env_query (Exited 0)]).
Proof.
  refine (proj1 (freeze_undecodable_query_output default_output_file
                   checkout_garbled checkout_garbled [Byte.xff] _ _));
    reflexivity.
Defined.

(** ** Every wrapper: what can and what cannot come out *)

(** X5. No wrapper handles a shell that cannot be started.  When
    [subprocess] raises [OSError] for a command, that exception reaches the
    caller, and the failed spawn is the last thing the wrapper did: no
    diagnostic is printed after it and no further command is tried. *)
Theorem wrapper_spawn_failure_propagates
    {W : Type} {host : Host W} {rt : Runtime} (c : call) (w : W) :
  existsb spawn_failed (trace_of (perform c w)) = true ->
  exists before cmd e,
    fate_of (outcome_of (perform c w)) = Unhandled (OSError e)
    /\ trace_of (perform c w) = (before ++ [Shell cmd (SpawnFailed e)])%list.
Proof.
  destruct c as [ | | f | | d | [name|] o]; case_host.
  all: cbn [fst snd]; try (intros; discriminate).
  all: intros _;
    match goal with
    | |- exists before cmd e, _ /\ ?t = _ =>
        match t with
        | [Shell ?c (SpawnFailed ?e)] => exists [], c, e
        | [?a; Shell ?c (SpawnFailed ?e)] => exists [a], c, e
        | [?a; ?b; Shell ?c (SpawnFailed ?e)] => exists [a; b], c, e
        end
    end; split; reflexivity.
Qed.

Lemma wrapper_spawn_failure_propagates_witness :
  existsb spawn_failed (trace_of (perform GitPull (NoShell checkout))) = true
  /\ exists before cmd e,
       fate_of (outcome_of (perform GitPull (NoShell checkout)))
       = Unhandled (OSError e)
       /\ trace_of (perform GitPull (NoShell checkout))
          = (before ++ [Shell cmd (SpawnFailed e)])%list.
Proof.
  assert (H : existsb spawn_failed
                (trace_of (perform GitPull (NoShell checkout))) = true)
    by reflexivity.
  split; [exact H|].
  exact (wrapper_spawn_failure_propagates GitPull (NoShell checkout) H).
Defined.

(** X6. No [CalledProcessError] ever leaves a wrapper: every [subprocess]
    call of the two scripts sits inside the [try] block whose handler
    catches it, and the handler raises none itself. *)
Theorem wrapper_catches_CalledProcessError
    {W : Type} {host : Host W} {rt : Runtime} (c : call) (w : W) :
  leaks_CalledProcessError (outcome_of (perform c w)) = false.
Proof.
  destruct c as [ | | f | | d | [name|] o]; case_host; reflexivity.
Qed.

(** X7. A wrapper exits the process only after a command of its own exited
    with a non-zero status, and then with status 1. *)
Theorem wrapper_exit_only_after_failure
    {W : Type} {host : Host W} {rt : Runtime} (c : call) (w : W) (n : Z) :
  fate_of (outcome_of (perform c w)) = ProcessExit n ->
  n = 1 /\ existsb exited_nonzero (trace_of (perform c w)) = true.
Proof.
  destruct c as [ | | f | | d | [name|] o]; case_host.
  all: cbn [fst snd app existsb exited_nonzero orb negb Z.eqb];
    try (intros; discriminate).
  all: intros [= <-]; known_status; split; reflexivity.
Qed.

Lemma wrapper_exit_only_after_failure_witness :
  fate_of (outcome_of (perform (BackupProject "backups")
                         (checkout_failing ["cp -r . backups"])))
  = ProcessExit 1
  /\ existsb exited_nonzero
       (trace_of (perform (BackupProject "backups")
                    (checkout_failing ["cp -r . backups"]))) = true.
Proof.
  assert (H : fate_of (outcome_of (perform (BackupProject "backups")
                         (checkout_failing ["cp -r . backups"])))
              = ProcessExit 1) by reflexivity.
  split; [exact H|].
  exact (proj2 (wrapper_exit_only_after_failure _ _ _ H)).
Defined.

(** ** Every wrapper: confirmation, number of commands *)

(** X8. The confirmation line of a wrapper is printed exactly when the
    wrapper ran a command and returned: it never appears on a run that
    exits the process or lets an exception through, nor when
    [install_requirements] finds no file. *)
Theorem confirmation_iff_success
    {W : Type} {host : Host W} {rt : Runtime} (c : call) (m : string) (w : W) :
  confirmation c = Some m ->
  In m (printed (trace_of (perform c w)))
  <-> (fate_of (outcome_of (perform c w)) = Returns
       /\ spawned (trace_of (perform c w)) <> []).
Proof.
  destruct c as [ | | f | | d | [name|] o]; cbn [confirmation];
    intros [= <-]; case_host.
  all: cbn [fst snd app printed spawned In fate_of]; split.
  all: try (intros [Hret Hsp]; first [discriminate Hret | now elim Hsp]).
  all: try (intros _; split; [reflexivity | discriminate]).
  all: try (intros H; exfalso; cbn in H;
            repeat match type of H with
                   | _ \/ _ => destruct H as [H | H]
                   end; first [discriminate H | exact H]).
  all: intros _; cbn; auto.
Qed.

Lemma confirmation_iff_success_witness :
  In "Repository erfolgreich aktualisiert."
     (printed (trace_of (perform GitPull checkout)))
  <-> (fate_of (outcome_of (perform GitPull checkout)) = Returns
       /\ spawned (trace_of (perform GitPull checkout)) <> []).
Proof.
  apply (confirmation_iff_success GitPull
           "Repository erfolgreich aktualisiert." checkout).
  reflexivity.
Defined.

(** X9. No wrapper retries and none goes on after a command that did not
    exit with status 0: a call hands at most one command line to the shell,
    two for [freeze_conda_environment] without a name, and every command but
    the last one it started exited with status 0. *)
Theorem wrapper_no_retry
    {W : Type} {host : Host W} {rt : Runtime} (c : call) (w : W) :
  (length (spawned (trace_of (perform c w))) <= max_commands c)%nat
  /\ forallb exited_zero (removelast (results (trace_of (perform c w)))) = true.
Proof.
  destruct c as [ | | f | | d | [name|] o]; case_host.
  all: cbn; split; [lia | reflexivity].
Qed.
